(** * Spectra: the tolerance-indexed spectral table of libpysat

    A shallow embedding of [libpysat/data/spectra.py].  The class [Spectra]
    derives from the pandas [DataFrame]; its methods are modelled as
    computations that may raise a Python exception and that record the calls
    they make to the external parsers and to the continuum routine.

    Conventions.
    - Floating-point labels, cell values and tolerances are read as rationals
      ([Q]); rounding is outside the model.
    - A global name used in a method body is looked up in the namespace the
      module itself builds (its imports and its class statement) and then in
      the builtins; a miss is Python's [NameError].
    - pandas, numpy, plio and the modules of libpysat that are not part of
      this file ([_index], [utils.utils]) are external collaborators: they are
      the fields of the record [Externals].  The import statements of the
      module are taken to succeed. *)

From Stdlib Require Import ZArith QArith Qabs List String Bool Lia.
From Stdlib Require Import Sorted.
Import ListNotations.

Local Open Scope string_scope.

(** ** Values *)

(** A label or a cell of a table: an integer, a real or a text. *)
Inductive scalar :=
| Int (z : Z)
| Real (q : Q)
| Str (s : string).

(** Python's [==] on such values: numbers compare by value, whatever their
    type; a number never equals a text. *)
Definition scalar_eqb (a b : scalar) : bool :=
  match a, b with
  | Int x, Int y => Z.eqb x y
  | Int x, Real q | Real q, Int x => Qeq_bool (inject_Z x) q
  | Real p, Real q => Qeq_bool p q
  | Str s, Str t => String.eqb s t
  | _, _ => false
  end.

Definition mem (l : scalar) (ls : list scalar) : bool :=
  existsb (scalar_eqb l) ls.

(** The number or the text a label stands for. *)
Definition val (a : scalar) : Q + string :=
  match a with
  | Int z => inl (inject_Z z)
  | Real q => inl q
  | Str s => inr s
  end.

Definition same (a b : scalar) : Prop :=
  match val a, val b with
  | inl p, inl q => p == q
  | inr s, inr t => s = t
  | _, _ => False
  end.

(** ** Exceptions, call trace and the monad of method bodies *)

Module Py.

Inductive exn :=
| NameError (name : string)
| KeyError
| AttributeError (name : string)
| Foreign (msg : string).

Inductive result (A : Type) :=
| Ok (a : A)
| Raise (e : exn).
Arguments Ok {A} a.
Arguments Raise {A} e.

(** Calls that leave the module: the two file parsers and the continuum
    routine of [libpysat.utils.utils]. *)
Inductive event :=
| OpenM3 (path : string)
| SpectralProfiler (path : string)
| LinearCorrection (bands : Z * Z) (ref : list scalar) (wv : list Q).

(** A computation yields the calls made so far and a result. *)
Definition M (A : Type) : Type := (list event * result A)%type.

Definition ret {A} (a : A) : M A := ([], Ok a).
Definition raise {A} (e : exn) : M A := ([], Raise e).
Definition lift {A} (r : result A) : M A := ([], r).
Definition call {A} (ev : event) (r : result A) : M A := ([ev], r).

Definition bind {A B} (m : M A) (k : A -> M B) : M B :=
  match m with
  | (t, Ok a) => let (t', r) := k a in ((t ++ t')%list, r)
  | (t, Raise e) => (t, Raise e)
  end.

Definition trace {A} (m : M A) : list event := fst m.
Definition outcome {A} (m : M A) : result A := snd m.

(** The computation ends in an exception. *)
Definition raises {A} (m : M A) : Prop := exists e, outcome m = Raise e.

Fixpoint mapM {A B} (f : A -> M B) (l : list A) : M (list B) :=
  match l with
  | [] => ret []
  | a :: l' => bind (f a) (fun b => bind (mapM f l') (fun bs => ret (b :: bs)))
  end.

End Py.
Import Py.

Declare Scope py_scope.
Delimit Scope py_scope with py.
Notation "x <- c ;; k" := (bind c (fun x => k))
  (at level 61, c at next level, right associativity) : py_scope.
Notation "' pat <- c ;; k" := (bind c (fun x => match x with pat => k end))
  (at level 61, pat pattern, c at next level, right associativity) : py_scope.
Local Open Scope py_scope.

(** ** Name resolution *)

(** What a global name is bound to. *)
Inductive binding :=
| Module_ (qualname : string)
| Class_ (qualname : string)
| Function_ (qualname : string)
| Builtin (name : string).

(** The global namespace of the module, in the order of its statements:
    the imports of lines 1-20 and the class statement of line 25. *)
Definition module_globals : list (string * binding) :=
  [ ("pd", Module_ "pandas");
    ("rand", Module_ "random");
    ("np", Module_ "numpy");
    ("Real", Class_ "numbers.Real");
    ("Number", Class_ "numbers.Number");
    ("reduce", Function_ "functools.reduce");
    ("singledispatch", Function_ "functools.singledispatch");
    ("io_spectral_profiler", Module_ "plio.io.io_spectral_profiler");
    ("_idx", Module_ "libpysat.data._index");
    ("lincorr", Function_ "libpysat.transform.continuum.lincorr");
    ("linear_correction", Function_ "libpysat.utils.utils.linear_correction");
    ("method_singledispatch", Function_ "libpysat.utils.utils.method_singledispatch");
    ("Spectra", Class_ "libpysat.data.spectra.Spectra") ].

(** The builtins the method bodies mention. *)
Definition builtins : list string :=
  [ "super"; "isinstance"; "hasattr"; "tuple"; "len"; "range";
    "property"; "classmethod" ].

Fixpoint assoc {V} (name : string) (env : list (string * V)) : option V :=
  match env with
  | [] => None
  | (n, v) :: env' => if String.eqb name n then Some v else assoc name env'
  end.

(** Evaluation of a global name inside a method body. *)
Definition resolve (name : string) : M binding :=
  match assoc name module_globals with
  | Some b => ret b
  | None =>
      if existsb (String.eqb name) builtins then ret (Builtin name)
      else raise (NameError name)
  end.

(** ** Tables *)

(** The row index of a table: one level of keys, or composite keys. *)
Inductive RowIndex :=
| Index (keys : list scalar)
| MultiIndex (names : list string) (keys : list (list scalar)).

(** [isinstance(index, pd.MultiIndex)] *)
Definition is_MultiIndex (i : RowIndex) : bool :=
  match i with
  | Index _ => false
  | MultiIndex _ _ => true
  end.

Definition row_keys (i : RowIndex) : list (list scalar) :=
  match i with
  | Index ks => map (fun k => [k]) ks
  | MultiIndex _ ks => ks
  end.

(** The pandas table: row index, column labels, and the cells row by row. *)
Record DataFrame := {
  index : RowIndex;
  columns : list scalar;
  values : list (list scalar)
}.

(** A one-dimensional labelled value: a row or a column of a table. *)
Record Series := {
  s_name : list scalar;
  s_index : list scalar;
  s_values : list scalar
}.

(** The indexer objects of [_index]; the attribute [_tolerance] exists only
    once it has been assigned. *)
Record LocIndexer := {
  name : string;
  _tolerance : option Q
}.

(** The state of a [Spectra] instance: the inherited table and the
    attributes assigned in [__init__]. *)
Record Spectra := {
  frame : DataFrame;
  _get : LocIndexer;
  _iget : LocIndexer;
  wavelengths : list Q;
  metadata : list scalar
}.

(** Objects passed to, or returned by, the collaborators. *)
Inductive PyObj :=
| ObjFrame (df : DataFrame)
| ObjSpectra (s : Spectra)
| ObjSeries (s : Series)
| ObjLabels (ls : list scalar)
| ObjCells (cs : list scalar).

(** A subscript of the locator: [:] or a key, which is one label or a
    sequence of labels. *)
Inductive key :=
| Scalar (k : scalar)
| Labels (ks : list scalar).

Inductive keypart :=
| Slice
| Key (k : key).

(** What a locator selects, before the engine boxes it: a block of the same
    rank as the table, or one of lower rank. *)
Inductive selection :=
| Block (df : DataFrame)
| Reduced (s : Series).

(** The raster dataset handed back by the imaging-cube parser. *)
Record Dataset := {
  RasterXSize : Z;
  RasterYSize : Z;
  ReadAsArray : list (list (list scalar));
  GetMetadata_Dict : list (string * scalar)
}.

(** The object handed back by the point-profiler parser. *)
Record Profile := {
  profile_spectra : DataFrame;
  ancillary_data : DataFrame
}.

(** ** External collaborators *)

Record Externals := {
  (** the inherited initialiser [pd.DataFrame.__init__], on the positional
      arguments *)
  DataFrame__init__ : list PyObj -> result DataFrame;
  (** [pd.DataFrame(data=..., columns=..., index=...)] *)
  pd_DataFrame : list (list scalar) -> list scalar -> RowIndex -> result DataFrame;
  (** [left.merge(right, left_index=True, right_index=True)] *)
  merge : DataFrame -> DataFrame -> result DataFrame;
  (** [df.sort_index()] *)
  sort_index : DataFrame -> DataFrame;
  (** how [DataFrame.apply] assembles the values returned for the rows *)
  apply_result : RowIndex -> list PyObj -> result PyObj;
  (** [pd.Float64Index(labels)] *)
  Float64Index : list scalar -> result (list Q);
  (** [row[labels].__array__()] on a row of the table *)
  Series__getitem__ : Series -> list Q -> result (list scalar);
  (** [array.swapaxes(0, 2)] and [np.reshape(array, (-1, n), order="A")] *)
  swapaxes_0_2 : list (list (list scalar)) -> list (list (list scalar));
  reshape_A : list (list (list scalar)) -> list (list scalar);
  (** [io_moon_minerology_mapper.openm3] *)
  openm3 : string -> result (list Q * Dataset);
  (** [io_spectral_profiler.Spectral_Profiler] *)
  Spectral_Profiler : string -> result Profile;
  (** lines 163-167: [to_frame], [unstack], [transpose], [swaplevel] *)
  pivot : DataFrame -> result DataFrame;
  (** lines 172-173: [reset_index], [merge(on='id')], [set_index] *)
  join_on_id : DataFrame -> DataFrame -> result DataFrame;
  (** [libpysat.utils.utils.linear_correction(bands, ref, wv)] *)
  utils_linear_correction :
    Z * Z -> list scalar -> list Q -> result (list scalar * list scalar);
  (** [_index.SpectrumLocIndexer.__getitem__]: what the key selects *)
  SpectrumLocIndexer__getitem__ :
    LocIndexer -> Spectra -> list keypart -> result selection;
  (** calling the class a name is bound to *)
  construct : binding -> list PyObj -> result PyObj
}.

(** ** Pure pieces of the method bodies *)

(** [range(n)] *)
Definition range (n : Z) : list Z :=
  map Z.of_nat (seq 0 (Z.to_nat n)).

(** Line 99: [[(i % X, i // X) for i in range(X * Y)]] *)
Definition coords (X Y : Z) : list (Z * Z) :=
  map (fun i => (i mod X, i / X)%Z) (range (X * Y)).

(** Line 117: [tuple([0, len(wavelengths) - 1])] *)
Definition bands_of (wavelengths : list Q) : Z * Z :=
  (0, Z.of_nat (List.length wavelengths) - 1)%Z.

(** [a.difference(b)] on pandas indexes: the labels of [a] that are not in
    [b], each once.  (The engine also orders the result when its labels are
    comparable; only membership is used below.) *)
Fixpoint Index_difference (a b : list scalar) : list scalar :=
  match a with
  | [] => []
  | l :: a' =>
      let rest := Index_difference a' b in
      if mem l b || mem l rest then rest else l :: rest
  end.

(** Lines 57-60: the metadata labels stored by [__init__]. *)
Definition init_metadata (cols : list scalar) (wavelengths : list Q)
    (metadata : list scalar) : list scalar :=
  match metadata with
  | _ :: _ => metadata
  | [] => Index_difference cols (map Real wavelengths)
  end.

(** The rows of a table, as [apply(..., axis=1)] hands them to its function. *)
Definition iterrows (df : DataFrame) : list Series :=
  map (fun kr => {| s_name := fst kr; s_index := columns df; s_values := snd kr |})
      (combine (row_keys (index df)) (values df)).

(** [pd.DataFrame(meta, index=index)]: one constant column per entry. *)
Definition broadcast (meta : list (string * scalar)) (idx : RowIndex) : DataFrame :=
  {| index := idx;
     columns := map (fun kv => Str (fst kv)) meta;
     values := map (fun _ => map snd meta) (row_keys idx) |}.

(** The empty row on which the engine probes the function of [apply]. *)
Definition empty_row : Series :=
  {| s_name := []; s_index := []; s_values := [] |}.

(** A call whose exception, if it raises one, is discarded by the caller:
    the calls it made remain. *)
Definition attempt {A} (m : M A) : M unit :=
  (trace m, Ok tt).

(** ** The class [Spectra] *)

Definition hasattr_tolerance (i : LocIndexer) : bool :=
  match _tolerance i with
  | Some _ => true
  | None => false
  end.

Definition getattr_tolerance (i : LocIndexer) : M Q :=
  match _tolerance i with
  | Some t => ret t
  | None => raise (AttributeError "_tolerance")
  end.

(** [self._get._tolerance = val] *)
Definition setattr_tolerance (self : Spectra) (val : Q) : Spectra :=
  {| frame := frame self;
     _get := {| name := name (_get self); _tolerance := Some val |};
     _iget := _iget self;
     wavelengths := wavelengths self;
     metadata := metadata self |}.

(** Lines 202-206: the getter of the property [tolerance].  It returns the
    value read and the instance, which it may have updated. *)
Definition tolerance (self : Spectra) : M (Q * Spectra) :=
  _ <- resolve "hasattr";;
  let self :=
    if negb (hasattr_tolerance (_get self)) then setattr_tolerance self (1 # 2)
    else self in
  t <- getattr_tolerance (_get self);;
  ret (t, self).

(** Lines 209-211: the setter of the property [tolerance]. *)
Definition tolerance_setter (self : Spectra) (val : Q) : Spectra :=
  setattr_tolerance self val.

(** Lines 178-185: the properties [get] and [iget]. *)
Definition get (self : Spectra) : LocIndexer := _get self.
Definition iget (self : Spectra) : LocIndexer := _iget self.

(** Lines 63-69: the constructor hook for results of lower rank. *)
Definition _constructor_sliced (self : Spectra) : M binding :=
  resolve "Spectrum".

(** Lines 72-77: the constructor hook for results of the same rank. *)
Definition _constructor (self : Spectra) : M binding :=
  resolve "_Spectra_DataFrame".

Section Methods.

Variable E : Externals.

(** Lines 46-60.  [args] are the positional arguments; [wavelengths],
    [metadata] and [tolerance] are the keyword-only ones. *)
Definition __init__ (args : list PyObj) (wavelengths : list scalar)
    (metadata : list scalar) (tolerance : Q) : M Spectra :=
  _ <- resolve "super";;
  _ <- resolve "_Spectra_DataFrame";;
  df <- lift (DataFrame__init__ E args);;
  let get_name := "loc" in
  let iget_name := "iloc" in
  _ <- resolve "_idx";;
  let _iget := {| name := iget_name; _tolerance := None |} in
  _ <- resolve "_idx";;
  let _get := {| name := get_name; _tolerance := None |} in
  let _get := {| name := name _get; _tolerance := Some tolerance |} in
  _ <- resolve "pd";;
  wl <- lift (Float64Index E wavelengths);;
  ret {| frame := df;
         _get := _get;
         _iget := _iget;
         wavelengths := wl;
         metadata := init_metadata (columns df) wl metadata |}.

(** Lines 80-109. *)
Definition from_m3 (path_to_file : string) (tolerance : Q) : M Spectra :=
  _ <- resolve "io_moon_minerology_mapper";;
  ' (wavelengths, ds) <- call (OpenM3 path_to_file) (openm3 E path_to_file);;
  let m3_array := swapaxes_0_2 E (ReadAsArray ds) in
  _ <- resolve "np";;
  let m3_array := reshape_A E m3_array in
  _ <- resolve "range";;
  let coords := coords (RasterXSize ds) (RasterYSize ds) in
  _ <- resolve "pd";;
  let index :=
    MultiIndex ["x"; "y"] (map (fun c => [Int (fst c); Int (snd c)]) coords) in
  _ <- resolve "pd";;
  m3_df <- lift (pd_DataFrame E m3_array (map Real wavelengths) index);;
  let meta := GetMetadata_Dict ds in
  let metadata := map fst meta in
  _ <- resolve "pd";;
  let meta_df := broadcast meta index in
  spectra_df <- lift (merge E m3_df meta_df);;
  let spectra_df := sort_index E spectra_df in
  __init__ [ObjFrame spectra_df; ObjLabels (map Real wavelengths);
            ObjLabels (map Str metadata)] [] [] tolerance.

(** Lines 147-175. *)
Definition from_spectral_profiler (f : string) (tolerance : Q) : M Spectra :=
  _ <- resolve "io_spectral_profiler";;
  geo_data <- call (SpectralProfiler f) (Spectral_Profiler E f);;
  let meta := ancillary_data geo_data in
  df <- lift (pivot E (profile_spectra geo_data));;
  let wavelengths := columns df in
  df <- lift (join_on_id E df meta);;
  __init__ [ObjFrame df] wavelengths [] tolerance.

(** Lines 119-124: the function applied to every row. *)
Definition lincorr (wavelengths : list Q) (bands : Z * Z) (row : Series)
    : M PyObj :=
  _ <- resolve "linear_correction";;
  ref <- lift (Series__getitem__ E row wavelengths);;
  ' (corr, y) <- call (LinearCorrection bands ref wavelengths)
                    (utils_linear_correction E bands ref wavelengths);;
  c <- resolve "Spectrum";;
  lift (construct E c [ObjCells corr; ObjLabels (map Real wavelengths)]).

(** [self.apply(func, axis=1)], a method of the engine.  On a table without
    rows or without columns the engine probes [func] once on an empty row,
    discards an exception of the probe and assembles an empty result.
    Otherwise the rows it hands to [func] are of lower rank than the table:
    it reads the hook [_constructor_sliced] (lines 63-69) before [func] is
    entered, then calls [func] on every row, in row order. *)
Definition apply (func : Series -> M PyObj) (self : Spectra) : M PyObj :=
  match row_keys (index (frame self)), columns (frame self) with
  | _ :: _, _ :: _ =>
      _ <- _constructor_sliced self;;
      results <- mapM func (iterrows (frame self));;
      lift (apply_result E (index (frame self)) results)
  | _, _ =>
      _ <- attempt (func empty_row);;
      lift (apply_result E (index (frame self)) [])
  end.

(** Lines 112-127. *)
Definition linear_correction (self : Spectra) : M Spectra :=
  let wavelengths_array := wavelengths self in
  _ <- resolve "tuple";;
  _ <- resolve "len";;
  let bands := bands_of wavelengths_array in
  data <- apply (lincorr wavelengths_array bands) self;;
  _ <- resolve "Spectra";;
  ' (tol, self) <- tolerance self;;
  __init__ [data] (map Real (wavelengths self)) [] tol.

(** Modelled from the spec: how the data a locator selected becomes a value
    (the locator, [_index.py], is not among the sources).  The selected data
    is fetched as by any operation on the table, so it is produced by the
    constructor hooks of lines 63-77: [_constructor] for a result of the rank
    of the table, [_constructor_sliced] for one of lower rank.  Only the fact
    that a hook is read is used below. *)
Definition box (self : Spectra) (sel : selection) : M PyObj :=
  match sel with
  | Block df => c <- _constructor self;; lift (construct E c [ObjFrame df])
  | Reduced s => c <- _constructor_sliced self;; lift (construct E c [ObjSeries s])
  end.

(** Modelled from the spec: [indexer[parts]] for an indexer of the table
    [self] ([SpectrumLocIndexer] of [_index.py], not among the sources).  The
    locator resolves the subscripts to a selection, or fails; the selection
    is then boxed as above. *)
Definition loc (indexer : LocIndexer) (self : Spectra) (parts : list keypart)
    : M PyObj :=
  sel <- lift (SpectrumLocIndexer__getitem__ E indexer self parts);;
  box self sel.

(** Lines 130-144. *)
Definition __getitem__ (self : Spectra) (k : key) : M PyObj :=
  _ <- resolve "isinstance";;
  _ <- resolve "pd";;
  if is_MultiIndex (index (frame self))
  then loc (get self) self [Slice; Slice; Key k]
  else loc (get self) self [Slice; Key k].

(** Lines 188-195: the two views. *)
Definition meta (self : Spectra) : M PyObj :=
  __getitem__ self (Labels (metadata self)).

Definition spectra (self : Spectra) : M PyObj :=
  __getitem__ self (Labels (map Real (wavelengths self))).

End Methods.

(** ** The tolerance locator *)

(** What resolving one real-valued key against a sequence of labels gives:
    the position of the single label matched, no label, or several. *)
Inductive located :=
| Unique (pos : nat)
| Miss
| Ambiguous (candidates : list nat).

(** Modelled from the spec: the matching rule of the tolerance locator
    ([SpectrumLocIndexer] of [libpysat/data/_index.py], which is not among
    the sources).  A stored label matches a requested value when their
    absolute difference is at most the tolerance. *)
Definition within (t k l : Q) : bool :=
  Qle_bool (Qabs (l - k)) t.

(** Modelled from the spec: the positions, from [i] on, of the labels in the
    tolerance window of the requested value [k] (module [_index] is not among
    the sources). *)
Fixpoint window (t k : Q) (labels : list Q) (i : nat) : list nat :=
  match labels with
  | [] => []
  | l :: ls =>
      if within t k l then i :: window t k ls (S i) else window t k ls (S i)
  end.

(** Modelled from the spec: the tolerance locator of [_index] (not among the
    sources) on one real-valued key.  Matching succeeds if exactly one stored
    label falls within the tolerance window of the requested value; it fails
    when none does; when several do the request is ambiguous and its outcome
    is left to the engine. *)
Definition tolerance_locate (t : Q) (labels : list Q) (k : Q) : located :=
  match window t k labels 0 with
  | [] => Miss
  | [i] => Unique i
  | c => Ambiguous c
  end.

(** Modelled from the spec: the tolerance a locator works with is the one
    stored on it, 0.5 when none was set ([_index.py] is not among the
    sources). *)
Definition indexer_tolerance (ix : LocIndexer) : Q :=
  match _tolerance ix with
  | Some t => t
  | None => 1 # 2
  end.

Definition is_Slice (p : keypart) : bool :=
  match p with
  | Slice => true
  | Key _ => false
  end.

(** The number of levels of a row index. *)
Definition nlevels (i : RowIndex) : nat :=
  match i with
  | Index _ => 1
  | MultiIndex names _ => List.length names
  end.

(** The number a key stands for, if it is one. *)
Definition real_of (s : scalar) : option Q :=
  match s with
  | Int z => Some (inject_Z z)
  | Real q => Some q
  | Str _ => None
  end.

(** Modelled from the spec: the locator [SpectrumLocIndexer.__getitem__] of
    [_index.py] (not among the sources) on a subscript made of one full
    slice per level of the row index followed by one real-valued key.  The
    slices keep every row; the key is matched against the wavelength labels
    within the tolerance of the locator.  Exactly one match selects that
    wavelength column, which [fetch] reads as a positional fetch would; no
    match is a lookup error; so is a subscript whose number of parts does not
    fit the row index.  Several matches, and every other form of subscript,
    are left to [rest]. *)
Definition spec_locator
    (rest : LocIndexer -> Spectra -> list keypart -> result selection)
    (fetch : Spectra -> nat -> selection)
    (ix : LocIndexer) (self : Spectra) (parts : list keypart)
    : result selection :=
  match rev parts with
  | Key (Scalar s) :: leading =>
      match real_of s with
      | Some q =>
          if forallb is_Slice leading then
            if Nat.eqb (List.length leading) (nlevels (index (frame self))) then
              match tolerance_locate (indexer_tolerance ix) (wavelengths self) q with
              | Unique i => Ok (fetch self i)
              | Miss => Raise KeyError
              | Ambiguous _ => rest ix self parts
              end
            else Raise KeyError
          else rest ix self parts
      | None => rest ix self parts
      end
  | _ => rest ix self parts
  end.

(** The collaborators [E] with the locator [L] in the place of theirs. *)
Definition with_locator (E : Externals)
    (L : LocIndexer -> Spectra -> list keypart -> result selection)
    : Externals :=
  {| DataFrame__init__ := DataFrame__init__ E;
     pd_DataFrame := pd_DataFrame E;
     merge := merge E;
     sort_index := sort_index E;
     apply_result := apply_result E;
     Float64Index := Float64Index E;
     Series__getitem__ := Series__getitem__ E;
     swapaxes_0_2 := swapaxes_0_2 E;
     reshape_A := reshape_A E;
     openm3 := openm3 E;
     Spectral_Profiler := Spectral_Profiler E;
     pivot := pivot E;
     join_on_id := join_on_id E;
     utils_linear_correction := utils_linear_correction E;
     SpectrumLocIndexer__getitem__ := L;
     construct := construct E |}.

(** ** Example tables *)

Definition indexer (t : Q) : LocIndexer :=
  {| name := "loc"; _tolerance := Some t |}.

(** Wavelengths 700, 750, 800, one row, tolerance 1. *)
Definition three_bands : Spectra :=
  {| frame := {| index := Index [Int 0];
                 columns := [Real 700; Real 750; Real 800];
                 values := [[Real (10 # 100); Real (12 # 100); Real (9 # 100)]] |};
     _get := indexer 1;
     _iget := {| name := "iloc"; _tolerance := None |};
     wavelengths := [700; 750; 800];
     metadata := [] |}.

(** The same observation with a metadata column. *)
Definition three_bands_lat : Spectra :=
  {| frame := {| index := Index [Int 0];
                 columns := [Real 700; Real 750; Real 800; Str "lat"];
                 values := [[Real (10 # 100); Real (12 # 100); Real (9 # 100);
                             Real (3 # 2)]] |};
     _get := indexer 1;
     _iget := {| name := "iloc"; _tolerance := None |};
     wavelengths := [700; 750; 800];
     metadata := [Str "lat"] |}.

(** One row whose wavelengths are stored out of order: 800, 700, 750. *)
Definition unordered_bands : Spectra :=
  {| frame := {| index := Index [Int 0];
                 columns := [Real 800; Real 700; Real 750];
                 values := [[Real (9 # 100); Real (10 # 100); Real (12 # 100)]] |};
     _get := indexer 1;
     _iget := {| name := "iloc"; _tolerance := None |};
     wavelengths := [800; 700; 750];
     metadata := [] |}.

(** The same table with a composite row index of two levels. *)
Definition three_bands_xy : Spectra :=
  {| frame := {| index := MultiIndex ["x"; "y"] [[Int 0; Int 0]];
                 columns := [Real 700; Real 750; Real 800];
                 values := [[Real (10 # 100); Real (12 # 100); Real (9 # 100)]] |};
     _get := indexer 1;
     _iget := {| name := "iloc"; _tolerance := None |};
     wavelengths := [700; 750; 800];
     metadata := [] |}.

(** ** Orders on pixel keys *)

(** Row-major order of pixels: by [y], then by [x]. *)
Definition yx_lt (a b : Z * Z) : Prop :=
  (snd a < snd b \/ (snd a = snd b /\ fst a < fst b))%Z.

(** The order of the composite key (x, y): by [x], then by [y]. *)
Definition xy_lt (a b : Z * Z) : Prop :=
  (fst a < fst b \/ (fst a = fst b /\ snd a < snd b))%Z.

(** * Properties *)

(** ** The monad *)

Lemma bind_ret : forall A B (a : A) (k : A -> M B), bind (ret a) k = k a.
Proof.
  intros. unfold bind, ret. destruct (k a). reflexivity.
Qed.

Lemma bind_lift_Ok : forall A B (a : A) (k : A -> M B), bind (lift (Ok a)) k = k a.
Proof. exact bind_ret. Qed.

Lemma outcome_bind : forall A B (m : M A) (k : A -> M B),
  outcome (bind m k) =
  match outcome m with
  | Ok a => outcome (k a)
  | Raise e => Raise e
  end.
Proof.
  intros A B [t [a | e]] k; simpl; [destruct (k a)|]; reflexivity.
Qed.

Lemma trace_bind : forall A B (m : M A) (k : A -> M B),
  trace (bind m k) =
  (trace m ++ match outcome m with
              | Ok a => trace (k a)
              | Raise _ => []
              end)%list.
Proof.
  intros A B [t [a | e]] k; simpl.
  - destruct (k a); reflexivity.
  - now rewrite app_nil_r.
Qed.

Lemma raises_bind : forall A B (m : M A) (k : A -> M B),
  (forall a, raises (k a)) -> raises (bind m k).
Proof.
  intros A B m k H. unfold raises. rewrite outcome_bind.
  destruct (outcome m) as [a | e]; [apply H | now exists e].
Qed.

Lemma raises_raise : forall A e, raises (@raise A e).
Proof. intros A e. now exists e. Qed.

(** ** Labels *)

Lemma scalar_eqb_same : forall a b, scalar_eqb a b = true <-> same a b.
Proof.
  intros [x | p | s] [y | q | t]; unfold same; simpl;
    try (split; [discriminate | contradiction]).
  - rewrite Z.eqb_eq. symmetry. apply inject_Z_injective.
  - apply Qeq_bool_iff.
  - rewrite Qeq_bool_iff. split; intros H; now symmetry.
  - apply Qeq_bool_iff.
  - apply String.eqb_eq.
Qed.

Lemma same_sym : forall a b, same a b -> same b a.
Proof.
  intros a b. unfold same.
  destruct (val a), (val b); intros H; try contradiction; now symmetry.
Qed.

Lemma same_trans : forall a b c, same a b -> same b c -> same a c.
Proof.
  intros a b c. unfold same.
  destruct (val a), (val b), (val c); intros H1 H2; try contradiction.
  - now rewrite H1.
  - congruence.
Qed.

Lemma scalar_eqb_compat : forall a b c,
  scalar_eqb a b = true -> scalar_eqb a c = scalar_eqb b c.
Proof.
  intros a b c Hab. apply scalar_eqb_same in Hab.
  destruct (scalar_eqb a c) eqn:Hac, (scalar_eqb b c) eqn:Hbc; try reflexivity.
  - apply scalar_eqb_same in Hac.
    assert (H : same b c) by (eapply same_trans; [apply same_sym |]; eassumption).
    apply scalar_eqb_same in H. congruence.
  - apply scalar_eqb_same in Hbc.
    assert (H : same a c) by (eapply same_trans; eassumption).
    apply scalar_eqb_same in H. congruence.
Qed.

Lemma mem_compat : forall a b ls,
  scalar_eqb a b = true -> mem a ls = mem b ls.
Proof.
  intros a b ls Hab. unfold mem. induction ls as [| c ls IH]; simpl.
  - reflexivity.
  - now rewrite IH, (scalar_eqb_compat a b c Hab).
Qed.

Lemma scalar_eqb_refl : forall a, scalar_eqb a a = true.
Proof.
  intros a. apply scalar_eqb_same. unfold same. destruct (val a); reflexivity.
Qed.

Lemma Index_difference_covered : forall a b,
  (forall x, In x a -> mem x b = true) -> Index_difference a b = [].
Proof.
  intros a b. induction a as [| x a' IH]; intros H; simpl.
  - reflexivity.
  - rewrite IH by (intros y Hy; apply H; now right).
    now rewrite (H x (or_introl eq_refl)).
Qed.

(** ** Construction *)

Lemma init_raises : forall E args wl md tol,
  __init__ E args wl md tol = ([], Raise (NameError "_Spectra_DataFrame")).
Proof. reflexivity. Qed.

Lemma raises_init : forall E args wl md tol, raises (__init__ E args wl md tol).
Proof. intros. rewrite init_raises. apply raises_raise. Qed.

Lemma box_raises : forall E self sel, raises (box E self sel).
Proof.
  intros E self [df | s]; eexists; reflexivity.
Qed.

Lemma getitem_raises : forall E self k, raises (__getitem__ E self k).
Proof.
  intros. unfold __getitem__.
  do 2 (apply raises_bind; intros _).
  destruct (is_MultiIndex _); apply raises_bind; intros; apply box_raises.
Qed.

Lemma linear_correction_raises : forall E self, raises (linear_correction E self).
Proof.
  intros. unfold linear_correction.
  do 4 (apply raises_bind; intros).
  apply raises_bind. intros [tol self']. apply raises_init.
Qed.

(** C1. Constructing a [Spectra] raises a [NameError] for every argument
    list, because [__init__] and the hook [_constructor] mention
    [_Spectra_DataFrame], which the module never binds; hence neither loader,
    nor [linear_correction], nor the views [meta] and [spectra] return
    normally. *)
Theorem construction_raises_NameError : forall E,
  (forall args wl md tol,
     __init__ E args wl md tol = ([], Raise (NameError "_Spectra_DataFrame"))) /\
  (forall self, _constructor self = ([], Raise (NameError "_Spectra_DataFrame"))) /\
  (forall path tol, raises (from_m3 E path tol)) /\
  (forall f tol, raises (from_spectral_profiler E f tol)) /\
  (forall self, raises (linear_correction E self)) /\
  (forall self, raises (meta E self)) /\
  (forall self, raises (spectra E self)).
Proof.
  intros E. repeat split.
  - intros. eexists. reflexivity.
  - intros. unfold from_spectral_profiler.
    do 4 (apply raises_bind; intros). apply raises_init.
  - apply linear_correction_raises.
  - intros. apply getitem_raises.
  - intros. apply getitem_raises.
Qed.

(** C9. [from_m3] raises a [NameError] on [io_moon_minerology_mapper] for
    every path and tolerance, and has called no parser by then: its trace of
    external calls is empty. *)
Theorem from_m3_raises_NameError : forall E path tol,
  from_m3 E path tol = ([], Raise (NameError "io_moon_minerology_mapper")).
Proof. reflexivity. Qed.

(** ** The tolerance accessor *)

(** C2. Reading [tolerance] returns the stored value, and 0.5 (which it then
    stores) when none was ever set; after writing [val], reading returns
    [val]. *)
Theorem tolerance_read_write : forall self val,
  tolerance self =
    ret (match _tolerance (_get self) with
         | Some t => (t, self)
         | None => (1 # 2, setattr_tolerance self (1 # 2))
         end) /\
  tolerance (tolerance_setter self val) = ret (val, tolerance_setter self val).
Proof.
  intros self val. split.
  - unfold tolerance, hasattr_tolerance.
    rewrite (bind_ret _ _ (Builtin "hasattr")).
    destruct (_tolerance (_get self)) as [t |] eqn:Ht; simpl.
    + unfold getattr_tolerance. rewrite Ht. apply bind_ret.
    + reflexivity.
  - reflexivity.
Qed.

(** ** Continuum correction *)

Lemma outcome_attempt : forall A (m : M A), outcome (attempt m) = Ok tt.
Proof. reflexivity. Qed.

(** C7. [linear_correction] returns no table.  The one-row table with
    wavelengths 700, 750, 800 and tolerance 1 cannot even be constructed:
    the constructor raises [NameError] on [_Spectra_DataFrame]; and on an
    instance in that state the method ends in an exception, so no corrected
    spectrum is reassembled into a table. *)
Theorem linear_correction_returns_no_table : forall E,
  __init__ E [ObjFrame (frame three_bands)] [Real 700; Real 750; Real 800] [] 1
    = ([], Raise (NameError "_Spectra_DataFrame")) /\
  raises (linear_correction E three_bands).
Proof.
  intros E. split; [reflexivity | apply linear_correction_raises].
Qed.


(** C10. [linear_correction] returns no table, hence none that has dropped
    the metadata columns: on the one-row table with wavelengths 700, 750, 800
    and the metadata column [lat] it ends in an exception, and on the same
    table without rows it fails with the error of the engine's reassembly
    or, when that has none, with the [NameError] of the constructor.  The
    constructor call of line 127 passes no metadata, and on a frame whose
    columns are the wavelengths the default of lines 57-60 is the empty
    set. *)
Theorem linear_correction_keeps_nothing : forall E,
  raises (linear_correction E three_bands_lat) /\
  outcome
    (linear_correction E
       {| frame := {| index := Index [];
                      columns := columns (frame three_bands_lat);
                      values := [] |};
          _get := _get three_bands_lat;
          _iget := _iget three_bands_lat;
          wavelengths := wavelengths three_bands_lat;
          metadata := metadata three_bands_lat |}) =
    match apply_result E (Index []) [] with
    | Raise e => Raise e
    | Ok _ => Raise (NameError "_Spectra_DataFrame")
    end /\
  (forall ws, init_metadata (map Real ws) ws [] = []).
Proof.
  intros E. split; [| split].
  - apply linear_correction_raises.
  - unfold linear_correction.
    rewrite (bind_ret _ _ (Builtin "tuple")), (bind_ret _ _ (Builtin "len")).
    rewrite outcome_bind. unfold apply. cbn [frame index row_keys map].
    rewrite outcome_bind, outcome_attempt. cbn [outcome lift snd].
    destruct (apply_result E (Index []) []) as [data | e]; reflexivity.
  - intros ws. apply Index_difference_covered.
    intros x Hx. apply existsb_exists. exists x. split; [exact Hx |].
    apply scalar_eqb_refl.
Qed.

(** ** The imaging-cube loader *)

Lemma range_nth : forall n i,
  (0 <= i < n)%Z -> nth_error (range n) (Z.to_nat i) = Some i.
Proof.
  intros n i H. unfold range.
  rewrite nth_error_map, nth_error_seq.
  destruct (Nat.ltb_spec (Z.to_nat i) (Z.to_nat n)) as [_ | Hge]; [| lia].
  simpl. f_equal. lia.
Qed.

(** Entry [i] of the coordinate list of line 99 is the pixel
    (i mod X, i div X). *)
Lemma coords_row_major : forall X Y i,
  (0 <= i < X * Y)%Z ->
  nth_error (coords X Y) (Z.to_nat i) = Some (i mod X, i / X)%Z.
Proof.
  intros X Y i H. unfold coords.
  now rewrite nth_error_map, range_nth.
Qed.

(** C5. [from_m3] builds no table: on the path [m3.lbl] with the default
    tolerance 2 it raises a [NameError] on its first line, before the cube is
    opened, whatever the cube's width and height. *)
Theorem from_m3_builds_no_table : forall E,
  from_m3 E "m3.lbl" 2 = ([], Raise (NameError "io_moon_minerology_mapper")).
Proof. reflexivity. Qed.

(** ** Tolerance matching *)

Lemma within_iff : forall t k l, within t k l = true <-> Qabs (l - k) <= t.
Proof. intros. unfold within. apply Qle_bool_iff. Qed.

Lemma within_false : forall t k l, ~ Qabs (l - k) <= t -> within t k l = false.
Proof.
  intros t k l H. destruct (within t k l) eqn:Hw; [| reflexivity].
  apply within_iff in Hw. contradiction.
Qed.

Lemma window_none : forall t k labels i,
  (forall j l, nth_error labels j = Some l -> within t k l = false) ->
  window t k labels i = [].
Proof.
  intros t k labels. induction labels as [| l ls IH]; intros i H; simpl.
  - reflexivity.
  - rewrite (H 0%nat l eq_refl). apply IH.
    intros j l' Hj. apply (H (S j) l' Hj).
Qed.

Lemma window_single : forall t k labels n w i,
  nth_error labels n = Some w ->
  within t k w = true ->
  (forall j l, nth_error labels j = Some l -> j <> n -> within t k l = false) ->
  window t k labels i = [(i + n)%nat].
Proof.
  intros t k labels. induction labels as [| l ls IH]; intros n w i Hn Hw Hother.
  - destruct n; discriminate.
  - destruct n as [| n']; simpl in *.
    + injection Hn as ->. rewrite Hw, Nat.add_0_r. f_equal.
      apply window_none. intros j l' Hj. apply (Hother (S j) l' Hj). discriminate.
    + rewrite (Hother 0%nat l eq_refl) by discriminate.
      rewrite (IH n' w (S i) Hn Hw).
      * f_equal. lia.
      * intros j l' Hj Hne. apply (Hother (S j) l' Hj). congruence.
Qed.

Lemma window_In : forall t k labels i j,
  In j (window t k labels i) ->
  exists l, nth_error labels (j - i) = Some l /\ within t k l = true /\ (i <= j)%nat.
Proof.
  intros t k labels. induction labels as [| l ls IH]; intros i j Hin; simpl in *.
  - contradiction.
  - destruct (within t k l) eqn:Hw.
    + destruct Hin as [<- | Hin].
      * exists l. rewrite Nat.sub_diag. auto.
      * destruct (IH _ _ Hin) as (l' & Hn & Hw' & Hle).
        exists l'. replace (j - i)%nat with (S (j - S i)) by lia. simpl. auto with arith.
    + destruct (IH _ _ Hin) as (l' & Hn & Hw' & Hle).
      exists l'. replace (j - i)%nat with (S (j - S i)) by lia. simpl. auto with arith.
Qed.

Lemma offset_abs : forall w eps, Qabs (w - (w + eps)) == Qabs eps.
Proof.
  intros. rewrite <- (Qabs_opp eps). apply Qabs_wd. ring.
Qed.

Lemma abs_le_zero : forall l k, Qabs (l - k) <= 0 -> l == k.
Proof.
  intros l k H. apply Qabs_Qle_condition in H. destruct H as [H1 H2].
  apply Qle_antisym.
  - apply Qle_minus_iff. apply Qle_minus_iff in H2.
    setoid_replace (k + - l) with (0 + - (l - k)) by ring. exact H2.
  - apply Qle_minus_iff. setoid_replace (l + - k) with (l - k) by ring.
    setoid_replace 0 with (- 0) by ring. exact H1.
Qed.

(** With tolerance 0 a lookup that succeeds has hit a label equal to the
    requested value. *)
Lemma tolerance_zero_exact : forall labels k j,
  tolerance_locate 0 labels k = Unique j ->
  exists l, nth_error labels j = Some l /\ l == k.
Proof.
  intros labels k j H. unfold tolerance_locate in H.
  destruct (window 0 k labels 0) as [| i [| i' c]] eqn:Hw; try discriminate.
  injection H as ->.
  destruct (window_In 0 k labels 0 j) as (l & Hn & Hin & _).
  - rewrite Hw. now left.
  - rewrite Nat.sub_0_r in Hn. exists l. split; [exact Hn |].
    apply abs_le_zero. now apply within_iff.
Qed.

(** The spec's example: wavelengths 700, 750, 800 and tolerance 1. *)
Example locate_750_3 : tolerance_locate 1 [700; 750; 800] (7503 # 10) = Unique 1.
Proof. reflexivity. Qed.

Example locate_760 : tolerance_locate 1 [700; 750; 800] 760 = Miss.
Proof. reflexivity. Qed.

(** A request may be within the tolerance of two stored labels. *)
Example locate_between :
  tolerance_locate 1 [700; 1403 # 2] (700 + 1) = Ambiguous [0%nat; 1%nat] /\
  tolerance_locate 1 [700; 1403 # 2] 700 = Unique 0.
Proof. split; reflexivity. Qed.

Lemma locate_isolated : forall t labels i w q,
  nth_error labels i = Some w ->
  (forall j l, nth_error labels j = Some l -> j <> i -> ~ Qabs (l - q) <= t) ->
  tolerance_locate t labels q =
    if within t q w then Unique i else Miss.
Proof.
  intros t labels i w q Hi Hother.
  assert (Hfalse : forall j l, nth_error labels j = Some l -> j <> i ->
                               within t q l = false).
  { intros j l Hj Hne. apply within_false. now apply (Hother j l). }
  unfold tolerance_locate. destruct (within t q w) eqn:Hw.
  - now rewrite (window_single t q labels i w 0 Hi Hw Hfalse).
  - rewrite window_none; [reflexivity |].
    intros j l Hj. destruct (Nat.eq_dec j i) as [-> | Hne].
    + rewrite Hi in Hj. now injection Hj as <-.
    + exact (Hfalse j l Hj Hne).
Qed.

(** ** Element access *)

Lemma getitem_unfold : forall E self k,
  __getitem__ E self k =
    loc E (get self) self
      (if is_MultiIndex (index (frame self))
       then [Slice; Slice; Key k]
       else [Slice; Key k]).
Proof.
  intros. unfold __getitem__.
  rewrite (bind_ret _ _ (Builtin "isinstance")).
  rewrite (bind_ret _ _ (Module_ "pandas")).
  destruct (is_MultiIndex _); reflexivity.
Qed.

Lemma getitem_locator : forall E self k,
  match SpectrumLocIndexer__getitem__ E (get self) self
          (if is_MultiIndex (index (frame self))
           then [Slice; Slice; Key k]
           else [Slice; Key k]) with
  | Raise e => __getitem__ E self k = ([], Raise e)
  | Ok _ => raises (__getitem__ E self k)
  end.
Proof.
  intros E self k. rewrite getitem_unfold. unfold loc.
  destruct (SpectrumLocIndexer__getitem__ E (get self) self _) as [sel | e].
  - rewrite bind_lift_Ok. apply box_raises.
  - reflexivity.
Qed.

Lemma spec_locator_on_slices : forall rest fetch self q,
  nlevels (index (frame self))
    = (if is_MultiIndex (index (frame self)) then 2 else 1)%nat ->
  spec_locator rest fetch (get self) self
    (if is_MultiIndex (index (frame self))
     then [Slice; Slice; Key (Scalar (Real q))]
     else [Slice; Key (Scalar (Real q))]) =
  match tolerance_locate (indexer_tolerance (get self)) (wavelengths self) q with
  | Unique i => Ok (fetch self i)
  | Miss => Raise KeyError
  | Ambiguous _ =>
      rest (get self) self
        (if is_MultiIndex (index (frame self))
         then [Slice; Slice; Key (Scalar (Real q))]
         else [Slice; Key (Scalar (Real q))])
  end.
Proof.
  intros rest fetch self q Hlev. unfold spec_locator.
  destruct (is_MultiIndex (index (frame self))); simpl; rewrite Hlev; reflexivity.
Qed.



(** C8. A lookup within the tolerance returns no data.  The table of the
    spec's example (wavelengths 700, 750, 800, tolerance 1) cannot be
    constructed: the constructor raises [NameError] on [_Spectra_DataFrame];
    and on an instance in that state the lookups of 750.3 and of 750 itself
    both end in an exception, whatever the locator answers. *)
Theorem tolerance_lookup_returns_no_data : forall E,
  __init__ E [ObjFrame (frame three_bands)] [Real 700; Real 750; Real 800] [] 1
    = ([], Raise (NameError "_Spectra_DataFrame")) /\
  raises (__getitem__ E three_bands (Scalar (Real (7503 # 10)))) /\
  raises (__getitem__ E three_bands (Scalar (Real 750))).
Proof.
  intros E. split; [reflexivity |]. split; apply getitem_raises.
Qed.

(** ** Wavelength and metadata columns *)

(** A label is in [a.difference(b)] exactly when it is in [a] and not in
    [b]. *)
Lemma mem_Index_difference : forall a b l,
  mem l (Index_difference a b) = mem l a && negb (mem l b).
Proof.
  intros a b l. induction a as [| x a' IH]; simpl.
  - reflexivity.
  - destruct (scalar_eqb l x) eqn:Hlx.
    + rewrite <- (mem_compat l x b Hlx).
      rewrite <- (mem_compat l x (Index_difference a' b) Hlx).
      destruct (mem l b) eqn:Hb; simpl.
      * rewrite IH. apply andb_false_r.
      * destruct (mem l (Index_difference a' b)) eqn:Hr; simpl.
        -- exact Hr.
        -- now rewrite Hlx.
    + destruct (mem x b || mem x (Index_difference a' b)); simpl.
      * exact IH.
      * now rewrite Hlx.
Qed.

(** C4. The views return no columns.  The table with the columns 700, 750,
    800 and [lat], whose wavelengths are 700, 750, 800, cannot be
    constructed: the constructor raises [NameError] on [_Spectra_DataFrame]
    before lines 55-60 are reached; and on an instance in that state both
    views end in an exception.  Lines 57-60, which are never reached, would
    store as default metadata exactly the column labels that are no
    wavelength. *)
Theorem views_return_no_columns : forall E,
  __init__ E [ObjFrame (frame three_bands_lat)] [Real 700; Real 750; Real 800] [] 1
    = ([], Raise (NameError "_Spectra_DataFrame")) /\
  raises (spectra E three_bands_lat) /\
  raises (meta E three_bands_lat) /\
  (forall cols ws l,
     mem l (init_metadata cols ws []) = mem l cols && negb (mem l (map Real ws))).
Proof.
  intros E. split; [reflexivity |]. split; [| split].
  - apply getitem_raises.
  - apply getitem_raises.
  - intros cols ws l. apply mem_Index_difference.
Qed.

(** * Further properties of the methods *)

(** ** Pixel coordinates *)

Lemma range_In : forall n i, In i (range n) <-> (0 <= i < n)%Z.
Proof.
  intros n i. unfold range. rewrite in_map_iff. split.
  - intros (k & <- & Hk). apply in_seq in Hk. lia.
  - intros H. exists (Z.to_nat i). split; [lia |]. apply in_seq. lia.
Qed.

Lemma range_NoDup : forall n, NoDup (range n).
Proof.
  intros n. unfold range. apply NoDup_map_NoDup_ForallPairs.
  - intros a b _ _ H. lia.
  - apply seq_NoDup.
Qed.

Lemma seq_sorted : forall len start, StronglySorted lt (seq start len).
Proof.
  induction len as [| len IH]; intros start; simpl; constructor.
  - apply IH.
  - apply Forall_forall. intros k Hk. apply in_seq in Hk. lia.
Qed.

Lemma map_sorted : forall A B (R : A -> A -> Prop) (S : B -> B -> Prop) (f : A -> B) l,
  (forall a b, R a b -> S (f a) (f b)) ->
  StronglySorted R l -> StronglySorted S (map f l).
Proof.
  intros A B R S f l Hf H. induction H as [| a l Hl IH Ha]; simpl; constructor.
  - exact IH.
  - apply Forall_forall. intros y Hy. apply in_map_iff in Hy.
    destruct Hy as (b & <- & Hb). apply Hf.
    rewrite Forall_forall in Ha. now apply Ha.
Qed.

Lemma pixel_of_index : forall X x y,
  (0 <= x < X)%Z -> ((x + X * y) mod X = x /\ (x + X * y) / X = y)%Z.
Proof.
  intros X x y H. split.
  - rewrite Z.mul_comm, Z_mod_plus_full. now apply Z.mod_small.
  - rewrite Z.mul_comm, Z_div_plus_full by lia. rewrite Z.div_small by lia. lia.
Qed.

(** X1. For a raster of positive width, the key list of line 99 enumerates
    the pixels exactly: it has width * height entries, a pair is in it
    exactly when it is a pixel of the raster, and no pixel occurs twice. *)
Theorem coords_enumerates_pixels : forall X Y,
  (0 < X)%Z -> (0 <= Y)%Z ->
  List.length (coords X Y) = Z.to_nat (X * Y) /\
  (forall x y, In (x, y) (coords X Y) <-> (0 <= x < X /\ 0 <= y < Y)%Z) /\
  NoDup (coords X Y).
Proof.
  intros X Y HX HY. repeat split.
  - unfold coords, range. now rewrite !length_map, length_seq.
  - unfold coords in H. apply in_map_iff in H. destruct H as (i & Hi & _).
    injection Hi as <- _. apply Z.mod_pos_bound. lia.
  - unfold coords in H. apply in_map_iff in H. destruct H as (i & Hi & _).
    injection Hi as <- _. apply Z.mod_pos_bound. lia.
  - unfold coords in H. apply in_map_iff in H. destruct H as (i & Hi & Hr).
    injection Hi as _ <-. apply range_In in Hr. apply Z.div_pos; lia.
  - unfold coords in H. apply in_map_iff in H. destruct H as (i & Hi & Hr).
    injection Hi as _ <-. apply range_In in Hr.
    apply Z.div_lt_upper_bound; lia.
  - intros (Hx & Hy). unfold coords. apply in_map_iff.
    exists (x + X * y)%Z. destruct (pixel_of_index X x y Hx) as [-> ->].
    split; [reflexivity |]. apply range_In. nia.
  - unfold coords. apply NoDup_map_NoDup_ForallPairs; [| apply range_NoDup].
    intros i j _ _ Hij. injection Hij as Hm Hd.
    rewrite (Z.div_mod i X), (Z.div_mod j X) by lia. now rewrite Hm, Hd.
Qed.

Lemma coords_enumerates_pixels_witness :
  List.length (coords 3 2) = 6%nat /\ In (2, 1)%Z (coords 3 2).
Proof.
  assert (HX : (0 < 3)%Z) by lia.
  assert (HY : (0 <= 2)%Z) by lia.
  destruct (coords_enumerates_pixels 3 2 HX HY) as (Hlen & Hin & _).
  split; [exact Hlen | apply Hin; lia].
Defined.

(** X2. A raster without pixels gives an empty key list: when width * height
    is not positive no key is computed, so the division by the width on
    line 99 is never evaluated for a width of 0. *)
Theorem coords_of_empty_raster : forall X Y,
  (X * Y <= 0)%Z -> coords X Y = [].
Proof.
  intros X Y H. unfold coords, range.
  replace (Z.to_nat (X * Y)) with 0%nat by lia. reflexivity.
Qed.

Lemma coords_of_empty_raster_witness : coords 0 5 = [].
Proof.
  apply coords_of_empty_raster. lia.
Defined.

(** X3. The key list of line 99 is strictly ascending in row-major order,
    that is by y and then by x. *)
Theorem coords_ascending_by_row : forall X Y,
  (0 < X)%Z -> StronglySorted yx_lt (coords X Y).
Proof.
  intros X Y HX. unfold coords, range. rewrite map_map.
  apply (map_sorted nat (Z * Z) lt yx_lt); [| apply seq_sorted].
  intros a b Hab. unfold yx_lt. simpl.
  assert (Hle : (Z.of_nat a / X <= Z.of_nat b / X)%Z)
    by (apply Z.div_le_mono; lia).
  destruct (Z.eq_dec (Z.of_nat a / X) (Z.of_nat b / X)) as [Heq | Hne].
  - right. split; [exact Heq |].
    pose proof (Z.div_mod (Z.of_nat a) X) as Ha.
    pose proof (Z.div_mod (Z.of_nat b) X) as Hb.
    rewrite Heq in Ha. lia.
  - left. lia.
Qed.

Lemma coords_ascending_by_row_witness : StronglySorted yx_lt (coords 2 2).
Proof.
  apply coords_ascending_by_row. lia.
Defined.

(** X4. For a raster of at least two columns and two rows the key list of
    line 99 is not ascending in the order of the composite key (x, y): the
    key (1, 0) at position 1 comes before the key (0, 1) at position width,
    and is greater.  The sort of line 108 therefore moves rows. *)
Theorem coords_not_ascending_by_key : forall X Y,
  (2 <= X)%Z -> (2 <= Y)%Z ->
  nth_error (coords X Y) 1 = Some (1, 0)%Z /\
  nth_error (coords X Y) (Z.to_nat X) = Some (0, 1)%Z /\
  (1 < Z.to_nat X)%nat /\
  xy_lt (0, 1)%Z (1, 0)%Z /\
  ~ StronglySorted xy_lt (coords X Y).
Proof.
  intros X Y HX HY.
  assert (H1 : nth_error (coords X Y) 1 = Some (1, 0)%Z).
  { change 1%nat with (Z.to_nat 1). rewrite coords_row_major by nia.
    now rewrite Z.mod_small, Z.div_small by lia. }
  assert (H2 : nth_error (coords X Y) (Z.to_nat X) = Some (0, 1)%Z).
  { rewrite coords_row_major by nia.
    now rewrite Z.mod_same, Z.div_same by lia. }
  repeat split; try assumption; try lia.
  - left. simpl. lia.
  - intros Hs.
    destruct (coords X Y) as [| c0 [| c1 rest]] eqn:Hc; try discriminate.
    simpl in H1. injection H1 as ->.
    apply StronglySorted_inv in Hs. destruct Hs as [Hs _].
    apply StronglySorted_inv in Hs. destruct Hs as [_ Hall].
    rewrite Forall_forall in Hall.
    assert (Hin : In (0, 1)%Z rest).
    { destruct (Z.to_nat X) as [| [| n]] eqn:Hn; try lia.
      simpl in H2. now apply nth_error_In in H2. }
    specialize (Hall _ Hin). unfold xy_lt in Hall. simpl in Hall. lia.
Qed.

Lemma coords_not_ascending_by_key_witness :
  nth_error (coords 2 2) 1 = Some (1, 0)%Z /\
  nth_error (coords 2 2) 2 = Some (0, 1)%Z.
Proof.
  assert (HX : (2 <= 2)%Z) by lia.
  destruct (coords_not_ascending_by_key 2 2 HX HX) as (H1 & H2 & _).
  split; [exact H1 | exact H2].
Defined.

(** ** The point-profiler loader *)

(** X5. [from_spectral_profiler] opens the file before it fails: it calls the
    parser exactly once, on the path it was given, and makes no other
    external call.  An error of the parser, of the pivot or of the join is
    passed on unchanged; when all three succeed the loader raises the
    [NameError] of the constructor. *)
Theorem from_spectral_profiler_parses_then_raises : forall E f tol,
  from_spectral_profiler E f tol =
    ([SpectralProfiler f],
     match Spectral_Profiler E f with
     | Raise e => Raise e
     | Ok geo_data =>
         match pivot E (profile_spectra geo_data) with
         | Raise e => Raise e
         | Ok df =>
             match join_on_id E df (ancillary_data geo_data) with
             | Raise e => Raise e
             | Ok _ => Raise (NameError "_Spectra_DataFrame")
             end
         end
     end).
Proof.
  intros E f tol. unfold from_spectral_profiler.
  rewrite (bind_ret _ _ (Module_ "plio.io.io_spectral_profiler")).
  destruct (Spectral_Profiler E f) as [geo_data | e]; [| reflexivity].
  simpl.
  destruct (pivot E (profile_spectra geo_data)) as [df | e]; [| reflexivity].
  simpl.
  destruct (join_on_id E df (ancillary_data geo_data)) as [df' | e];
    reflexivity.
Qed.

(** ** The row function of the continuum correction *)

(** X6. The row function [lincorr] never returns a spectrum.  It calls the
    continuum routine at most once, and only when the row selection has
    succeeded; an error of the selection or of the routine is passed on
    unchanged; when both succeed it raises [NameError] on [Spectrum]. *)
Theorem lincorr_never_returns : forall E ws b row,
  lincorr E ws b row =
    match Series__getitem__ E row ws with
    | Raise e => ([], Raise e)
    | Ok ref =>
        ([LinearCorrection b ref ws],
         match utils_linear_correction E b ref ws with
         | Raise e => Raise e
         | Ok _ => Raise (NameError "Spectrum")
         end)
    end.
Proof.
  intros E ws b row. unfold lincorr.
  rewrite (bind_ret _ _ (Function_ "libpysat.utils.utils.linear_correction")).
  destruct (Series__getitem__ E row ws) as [ref | e]; [| reflexivity].
  rewrite bind_lift_Ok.
  destruct (utils_linear_correction E b ref ws) as [[corr y] | e]; reflexivity.
Qed.


(** ** The tolerance accessor, continued *)

(** X10. Reading the tolerance is stable and touches nothing else: a read
    yields a value and an instance on which a further read yields the same
    value and the same instance; the indexer returned by [get] then holds
    that value, and the table, the wavelengths, the metadata labels and the
    indexer [_iget] are those of the instance read.  Of two writes in a row
    the last one wins, and a write leaves [_iget] without a tolerance of its
    own. *)
Theorem tolerance_stable : forall self a b,
  (exists t self',
     tolerance self = ret (t, self') /\
     tolerance self' = ret (t, self') /\
     _tolerance (get self') = Some t /\
     frame self' = frame self /\
     wavelengths self' = wavelengths self /\
     metadata self' = metadata self /\
     iget self' = iget self) /\
  tolerance_setter (tolerance_setter self a) b = tolerance_setter self b /\
  iget (tolerance_setter self a) = iget self.
Proof.
  intros self a b. split; [| split; reflexivity].
  destruct (_tolerance (_get self)) as [t |] eqn:Ht.
  - exists t, self.
    assert (Hread : tolerance self = ret (t, self)).
    { unfold tolerance, hasattr_tolerance, getattr_tolerance.
      rewrite (bind_ret _ _ (Builtin "hasattr")), Ht. simpl.
      rewrite Ht. apply bind_ret. }
    repeat split; try exact Hread. exact Ht.
  - exists (1 # 2), (setattr_tolerance self (1 # 2)).
    assert (Hread : tolerance self = ret (1 # 2, setattr_tolerance self (1 # 2))).
    { unfold tolerance, hasattr_tolerance, getattr_tolerance.
      rewrite (bind_ret _ _ (Builtin "hasattr")), Ht. reflexivity. }
    repeat split; exact Hread.
Qed.

(** ** The bands of the continuum correction *)

(** X11. The bands of line 117 are positions of the wavelength sequence
    whenever it is not empty: the first is 0 and the second is the last
    position.  For an empty sequence the second band is -1, and the two bands
    coincide exactly when there is a single wavelength. *)
Theorem bands_in_bounds : forall ws,
  fst (bands_of ws) = 0%Z /\
  (ws = [] <-> snd (bands_of ws) = (-1)%Z) /\
  (ws <> [] ->
     (0 <= snd (bands_of ws) < Z.of_nat (List.length ws))%Z /\
     nth_error ws (Z.to_nat (snd (bands_of ws))) = Some (last ws 0)) /\
  (fst (bands_of ws) = snd (bands_of ws) <-> List.length ws = 1%nat).
Proof.
  intros ws. unfold bands_of. cbn [fst snd].
  split; [reflexivity |]. split; [| split].
  - split.
    + intros ->. reflexivity.
    + intros H. destruct ws; [reflexivity | cbn [List.length] in H; lia].
  - intros H. split.
    + destruct ws; [congruence | cbn [List.length]; lia].
    + replace (Z.to_nat (Z.of_nat (List.length ws) - 1))
        with (List.length ws - 1)%nat by lia.
      destruct (exists_last H) as (ws' & w & ->).
      rewrite last_last, length_app, nth_error_app2 by (simpl; lia).
      simpl.
      replace (List.length ws' + 1 - 1 - List.length ws')%nat with 0%nat by lia.
      reflexivity.
  - split; lia.
Qed.
